(** * FlowHook: capture, forwarding and rate limiting

  A shallow embedding of the capture pipeline of the FlowHook webhook
  service (package [handlers] and package [transform]) together with the
  properties of its specification.

  Conventions.
  - Go [int]/[int64] values are [Z]; where the source can wrap, the
    wrap-around is written out.
  - [time.Time] is a number of nanoseconds on the process' monotonic
    clock, [time.Duration] a number of nanoseconds.
  - Go [string] and [[]byte] are byte sequences: [string] and [list byte].
  - Go maps are [gmap]s; a missing key reads as the zero value, spelled
    out with [default].
  - [float64] values (the numbers of a decoded JSON document) are exact
    rationals; rounding is not modelled.
  - Functions of the Go libraries whose results the properties do not
    depend on (HMAC digests, JSON encoding, the script engines, IP parsing)
    are parameters; those they do depend on (UTF-8 validity, base64, hex,
    constant-time comparison, prefix trimming) are written out.
  - Calls into the database are steps on an explicit store; the error
    branches of the source are driven by per-call fault flags. *)

From Stdlib Require Import ZArith QArith Qminmax Lia Lqa String Ascii.
From Stdlib.Strings Require Import Byte.
From stdpp Require Import gmap strings list pretty sorting.

Open Scope Z_scope.

(* ================================================================= *)
(** * Part I: the program *)
(* ================================================================= *)

(** ** package time *)

Module GoTime.

Definition Millisecond : Z := 1000000.
Definition Second : Z := 1000 * Millisecond.
Definition Minute : Z := 60 * Second.
Definition Hour : Z := 60 * Minute.

(** [t.Add(d)] *)
Definition Add (t d : Z) : Z := t + d.

(** [t.After(u)]: strictly later. *)
Definition After (t u : Z) : bool := bool_decide (u < t).

End GoTime.

(** ** handlers: the sliding-window rate limiter *)

Module RateLimit.
Import GoTime.

(** The three nullable columns read from [endpoint_settings]. *)
Record Limits := {
  rateLimitPerMin : option Z;
  rateLimitPerHour : option Z;
  rateLimitPerDay : option Z
}.

(** [globalRateLimiter.requests]: endpoint id -> admission timestamps. *)
Abbreviation limiter := (gmap string (list Z)).

(** [for _, t := range requests { if t.After(cutoff) { valid = append(valid, t) } }] *)
Definition keep_after (cutoff : Z) (requests : list Z) : list Z :=
  foldl (λ valid t, if After t cutoff then valid ++ [t] else valid) [] requests.

(** [for _, t := range requests { if t.After(cutoff) { count++ } }] *)
Definition count_after (cutoff : Z) (requests : list Z) : Z :=
  foldl (λ count t, if After t cutoff then count + 1 else count) 0 requests.

Definition per_minute_error (l : Z) : string :=
  "rate limit exceeded: " +:+ pretty l +:+ " requests per minute".
Definition per_hour_error (l : Z) : string :=
  "rate limit exceeded: " +:+ pretty l +:+ " requests per hour".
Definition per_day_error (l : Z) : string :=
  "rate limit exceeded: " +:+ pretty l +:+ " requests per day".

(** One threshold check: [Some err] when the count has reached the limit. *)
Definition check_limit (limit : option Z) (window : Z) (err : Z → string)
    (now : Z) (requests : list Z) : option string :=
  match limit with
  | Some l =>
      if bool_decide (l ≤ count_after (Add now (- window)) requests)
      then Some (err l) else None
  | None => None
  end.

(** [CheckRateLimit].  [settings] is the outcome of the settings query:
    [None] when [Scan] returned an error (no row, or a failed query), in
    which case the request is allowed and nothing is recorded.  The result
    is the pair [(allowed, err)] and the limiter afterwards. *)
Definition CheckRateLimit (settings : option Limits) (key : string) (now : Z)
    (rl : limiter) : (bool * option string) * limiter :=
  match settings with
  | None => ((true, None), rl)
  | Some lim =>
      (* Clean old entries: keep only the last hour *)
      let rl1 :=
        match rl !! key with
        | Some requests => <[key := keep_after (Add now (- (1 * Hour))) requests]> rl
        | None => rl
        end in
      let current := default [] (rl1 !! key) in
      match check_limit (rateLimitPerMin lim) (1 * Minute) per_minute_error now current with
      | Some e => ((false, Some e), rl1)
      | None =>
      match check_limit (rateLimitPerHour lim) (1 * Hour) per_hour_error now current with
      | Some e => ((false, Some e), rl1)
      | None =>
      match check_limit (rateLimitPerDay lim) (24 * Hour) per_day_error now current with
      | Some e => ((false, Some e), rl1)
      | None =>
          (* Record this request *)
          ((true, None), <[key := current ++ [now]]> rl1)
      end end end
  end.

(** A sequence of admission requests, in the order in which they take the
    limiter's mutex. *)
Record call := {
  c_settings : option Limits;
  c_key : string;
  c_now : Z
}.

Definition step (c : call) (rl : limiter) : (bool * option string) * limiter :=
  CheckRateLimit (c_settings c) (c_key c) (c_now c) rl.

(** The verdicts of a sequence of calls. *)
Fixpoint verdicts (cs : list call) (rl : limiter) : list bool :=
  match cs with
  | [] => []
  | c :: cs' => (step c rl).1.1 :: verdicts cs' (step c rl).2
  end.

(** The timestamps of the calls for [key] that were admitted. *)
Fixpoint admissions (key : string) (cs : list call) (rl : limiter) : list Z :=
  match cs with
  | [] => []
  | c :: cs' =>
      (if (step c rl).1.1 && bool_decide (c_key c = key) then [c_now c] else [])
        ++ admissions key cs' (step c rl).2
  end.

(** Number of timestamps in the trailing window [(a, a + w]]. *)
Definition in_window (a w : Z) (ts : list Z) : Z :=
  Z.of_nat (length (filter (λ t, a < t ≤ a + w) ts)).

(** Number of recorded timestamps later than [now - w]. *)
Definition recent (now w : Z) (recorded : list Z) : Z :=
  Z.of_nat (length (filter (λ t, now - w < t) recorded)).



End RateLimit.

(** ** package strings *)

Module GoStrings.

(** [strings.HasPrefix(s, prefix)] *)
Definition HasPrefix (s prefix : string) : bool := String.prefix prefix s.

(** [strings.TrimPrefix(s, prefix)]: [s] without the leading [prefix], or
    [s] itself when it does not start with [prefix]. *)
Definition TrimPrefix (s prefix : string) : string :=
  if HasPrefix s prefix
  then String.substring (String.length prefix) (String.length s - String.length prefix) s
  else s.

(** [strings.Split(s, sep)[0]] for a one-byte separator: the part of [s]
    before the first occurrence of [sep] (all of [s] when there is none). *)
Fixpoint first_field (sep : ascii) (s : string) : string :=
  match s with
  | EmptyString => EmptyString
  | String c s' => if Ascii.eqb c sep then EmptyString else String c (first_field sep s')
  end.

(** The line feed that [http.Error] appends to its message. *)
Definition LF : string := String (ascii_of_nat 10) EmptyString.

End GoStrings.

(** ** package unicode/utf8 *)

Module Utf8.

Definition between (lo hi x : N) : bool := ((lo <=? x) && (x <=? hi))%N.

(** Continuation byte [0x80..0xBF]. *)
Definition cont (b : byte) : bool := between 128 191 (Byte.to_N b).

(** [utf8.Valid(p)]: [p] consists entirely of well-formed UTF-8 sequences
    (no overlong forms, no surrogates, nothing above U+10FFFF). *)
Fixpoint Valid (p : list byte) : bool :=
  match p with
  | [] => true
  | b0 :: p1 =>
      let x := Byte.to_N b0 in
      if (x <? 128)%N then Valid p1
      else if between 194 223 x then
        match p1 with
        | b1 :: p2 => cont b1 && Valid p2
        | _ => false
        end
      else if between 224 239 x then
        match p1 with
        | b1 :: b2 :: p3 =>
            let lo := if (x =? 224)%N then 160%N else 128%N in
            let hi := if (x =? 237)%N then 159%N else 191%N in
            between lo hi (Byte.to_N b1) && cont b2 && Valid p3
        | _ => false
        end
      else if between 240 244 x then
        match p1 with
        | b1 :: b2 :: b3 :: p4 =>
            let lo := if (x =? 240)%N then 144%N else 128%N in
            let hi := if (x =? 244)%N then 143%N else 191%N in
            between lo hi (Byte.to_N b1) && cont b2 && cont b3 && Valid p4
        | _ => false
        end
      else false
  end.

End Utf8.

(** ** package encoding/base64 ([StdEncoding]) *)

Module Base64.

Definition alphabet : list ascii :=
  list_ascii_of_string
    "ABCDEFGHIJKLMNOPQRSTUVWXYZabcdefghijklmnopqrstuvwxyz0123456789+/".

Definition pad : ascii := "="%char.

(** The character of a 6-bit value. *)
Definition enc6 (n : N) : ascii := nth (N.to_nat n) alphabet pad.

Definition of_N (n : N) : byte := default x00 (Byte.of_N n).

(** [StdEncoding.EncodeToString(src)]: three bytes become four characters,
    a final group of one or two bytes is padded with [=]. *)
Fixpoint EncodeToString (src : list byte) : string :=
  match src with
  | [] => EmptyString
  | [a] =>
      let x := Byte.to_N a in
      String (enc6 (x / 4)) (String (enc6 (x mod 4 * 16))
        (String pad (String pad EmptyString)))
  | [a; b] =>
      let x := Byte.to_N a in let y := Byte.to_N b in
      String (enc6 (x / 4)) (String (enc6 (x mod 4 * 16 + y / 16))
        (String (enc6 (y mod 16 * 4)) (String pad EmptyString)))
  | a :: b :: c :: rest =>
      let x := Byte.to_N a in let y := Byte.to_N b in let z := Byte.to_N c in
      String (enc6 (x / 4)) (String (enc6 (x mod 4 * 16 + y / 16))
        (String (enc6 (y mod 16 * 4 + z / 64)) (String (enc6 (z mod 64))
          (EncodeToString rest))))
  end%N.

Fixpoint index_of (c : ascii) (l : list ascii) : option N :=
  match l with
  | [] => None
  | d :: l' => if Ascii.eqb c d then Some 0%N else N.succ <$> index_of c l'
  end.

(** The 6-bit value of a character of the alphabet. *)
Definition dec6 (c : ascii) : option N := index_of c alphabet.

Definition decode_group (c1 c2 c3 c4 : ascii) : option (list byte) :=
  x1 ← dec6 c1; x2 ← dec6 c2; x3 ← dec6 c3; x4 ← dec6 c4;
  Some [of_N (x1 * 4 + x2 / 16); of_N (x2 mod 16 * 16 + x3 / 4);
        of_N (x3 mod 4 * 64 + x4)]%N.

Definition decode_last (c1 c2 c3 c4 : ascii) : option (list byte) :=
  if Ascii.eqb c4 pad then
    if Ascii.eqb c3 pad then
      x1 ← dec6 c1; x2 ← dec6 c2; Some [of_N (x1 * 4 + x2 / 16)]%N
    else
      x1 ← dec6 c1; x2 ← dec6 c2; x3 ← dec6 c3;
      Some [of_N (x1 * 4 + x2 / 16); of_N (x2 mod 16 * 16 + x3 / 4)]%N
  else decode_group c1 c2 c3 c4.

Fixpoint decode_chars (s : list ascii) : option (list byte) :=
  match s with
  | [] => Some []
  | c1 :: c2 :: c3 :: c4 :: rest =>
      match rest with
      | [] => decode_last c1 c2 c3 c4
      | _ => g ← decode_group c1 c2 c3 c4; r ← decode_chars rest; Some (g ++ r)
      end
  | _ => None
  end.

(** [StdEncoding.DecodeString(s)] *)
Definition DecodeString (s : string) : option (list byte) :=
  decode_chars (list_ascii_of_string s).

End Base64.

(** ** Machine integers *)

Module GoInt.

(** Two's-complement wrap-around of an [int64] result. *)
Definition wrap64 (z : Z) : Z := (z + 2 ^ 63) mod 2 ^ 64 - 2 ^ 63.

End GoInt.

(** ** package encoding/hex and crypto/subtle *)

Module GoCrypto.

Definition hextable : list ascii := list_ascii_of_string "0123456789abcdef".

Definition hexdigit (n : N) : ascii := nth (N.to_nat n) hextable "0"%char.

(** [hex.EncodeToString(src)] *)
Fixpoint hex_EncodeToString (src : list byte) : string :=
  match src with
  | [] => EmptyString
  | b :: rest =>
      String (hexdigit (Byte.to_N b / 16)) (String (hexdigit (Byte.to_N b mod 16))
        (hex_EncodeToString rest))
  end%N.

(** The loop of [subtle.ConstantTimeCompare]: [v |= x[i] ^ y[i]] over all
    positions, with no exit that depends on the data. *)
Fixpoint xor_fold (v : N) (x y : list byte) : N :=
  match x, y with
  | a :: x', b :: y' => xor_fold (N.lor v (N.lxor (Byte.to_N a) (Byte.to_N b))) x' y'
  | _, _ => v
  end.

(** [subtle.ConstantTimeCompare(x, y)]: 1 when the slices are equal. *)
Definition ConstantTimeCompare (x y : list byte) : Z :=
  if negb (length x =? length y)%nat then 0
  else if (xor_fold 0 x y =? 0)%N then 1 else 0.

(** [hmac.Equal(mac1, mac2)] *)
Definition hmac_Equal (mac1 mac2 : list byte) : bool :=
  ConstantTimeCompare mac1 mac2 =? 1.

End GoCrypto.

(** ** The store (PostgreSQL tables used by the capture path) *)

Module Store.

(** A row of [endpoint_settings]; every column but the key is nullable. *)
Record SettingsRow := {
  hmac_secret : option string;
  hmac_algorithm : option string;
  rate_limit_per_minute : option Z;
  rate_limit_per_hour : option Z;
  rate_limit_per_day : option Z
}.

(** A row of [requests], as inserted by the capture handler. *)
Record RequestRow := {
  req_id : string;
  req_endpoint_id : string;
  req_method : string;
  req_path : string;
  req_headers : string;
  req_query_params : string;
  req_ip : option string;
  req_body : option string;
  req_body_size : Z;
  req_content_type : option string
}.

(** [endpoints] maps the unique slug to the endpoint id (a UUID, kept in
    its canonical text form, so that [endpointID.String()] is the value
    itself); [endpoint_settings] has at most one row per endpoint id. *)
Record DB := {
  endpoints : gmap string string;
  endpoint_settings : gmap string SettingsRow;
  requests : list RequestRow
}.

(** Outcome of [QueryRow(...).Scan(...)]. *)
Inductive QueryResult (A : Type) :=
| ErrNoRows
| QueryErr (msg : string)
| Row (a : A).
Arguments ErrNoRows {A}.
Arguments QueryErr {A} msg.
Arguments Row {A} a.

Definition insert_request (row : RequestRow) (d : DB) : DB :=
  {| endpoints := endpoints d;
     endpoint_settings := endpoint_settings d;
     requests := requests d ++ [row] |}.

(** [SELECT id FROM endpoints WHERE slug = $1] *)
Definition query_endpoint (fault : option string) (d : DB) (slug : string)
    : QueryResult string :=
  match fault with
  | Some e => QueryErr e
  | None => match endpoints d !! slug with
            | Some i => Row i
            | None => ErrNoRows
            end
  end.

(** [SELECT rate_limit_per_minute, rate_limit_per_hour, rate_limit_per_day
     FROM endpoint_settings WHERE endpoint_id = $1]; the caller only asks
    whether there was an error. *)
Definition query_rate_limits (fault : option string) (d : DB) (endpointID : string)
    : option RateLimit.Limits :=
  match fault with
  | Some _ => None
  | None =>
      row ← endpoint_settings d !! endpointID;
      Some {| RateLimit.rateLimitPerMin := rate_limit_per_minute row;
              RateLimit.rateLimitPerHour := rate_limit_per_hour row;
              RateLimit.rateLimitPerDay := rate_limit_per_day row |}
  end.

(** The message of the driver when a NULL is scanned into a Go [string]. *)
Definition scan_null_error : string := "cannot scan NULL into *string".

(** [SELECT hmac_secret, hmac_algorithm FROM endpoint_settings WHERE
    endpoint_id = $1], scanned into [*string] and [string]. *)
Definition query_hmac_settings (fault : option string) (d : DB) (endpointID : string)
    : QueryResult (option string * string) :=
  match fault with
  | Some e => QueryErr e
  | None =>
      match endpoint_settings d !! endpointID with
      | None => ErrNoRows
      | Some row =>
          match hmac_algorithm row with
          | Some algorithm => Row (hmac_secret row, algorithm)
          | None => QueryErr scan_null_error
          end
      end
  end.

End Store.

(** ** package net/http *)

Module Http.

(** [http.Header] and [url.Values]: canonical name -> values. *)
Abbreviation Header := (gmap string (list string)).

(** [h.Get(key)] for a key in canonical form: the first value, or [""]. *)
Definition Get (h : Header) (key : string) : string :=
  match h !! key with
  | Some (v :: _) => v
  | _ => EmptyString
  end.

Record Request := {
  Method : string;
  URL_Path : string;
  URL_Query : Header;
  Headers : Header;
  RemoteAddr : string;
  Body : list byte
}.

Record Response := {
  status : Z;
  payload : string
}.

Definition StatusOK : Z := 200.
Definition StatusBadRequest : Z := 400.
Definition StatusUnauthorized : Z := 401.
Definition StatusNotFound : Z := 404.
Definition StatusRequestEntityTooLarge : Z := 413.
Definition StatusTooManyRequests : Z := 429.
Definition StatusInternalServerError : Z := 500.

(** [http.Error(w, msg, code)] *)
Definition Error (msg : string) (code : Z) : Response :=
  {| status := code; payload := msg +:+ GoStrings.LF |}.

(** [io.ReadAll(io.LimitReader(body, n))]: at most [n] bytes, none when
    [n <= 0]; [None] when the read fails. *)
Definition ReadAll_LimitReader (fails : bool) (body : list byte) (n : Z)
    : option (list byte) :=
  if fails then None else Some (take (Z.to_nat n) body).

End Http.

(** ** handlers: the SSE connection manager *)

Module SSE.

(** An [*sseConnection] is an address; the heap holds the struct, whose
    channel [ch] is modelled by the queue of messages buffered in it. *)
Record sseConnection := {
  endpointID : string;
  ch : list (list byte)
}.

(** [make(chan []byte, 10)] *)
Definition chan_cap : nat := 10.

(** [sseMgr]: [connections] is the map of the source (endpoint key -> set
    of connections); [heap] holds the connection structs. *)
Record sseManager := {
  connections : gmap string (gset nat);
  heap : gmap nat sseConnection
}.

Definition sseMgr_init : sseManager := {| connections := ∅; heap := ∅ |}.

(** [select { case conn.ch <- data: default: }]: a non-blocking send; the
    message is dropped when the buffer is full. *)
Definition send_nonblocking (data : list byte) (conn : nat)
    (h : gmap nat sseConnection) : gmap nat sseConnection :=
  match h !! conn with
  | Some c =>
      if (length (ch c) <? chan_cap)%nat
      then <[conn := {| endpointID := endpointID c; ch := ch c ++ [data] |}]> h
      else h
  | None => h
  end.

(** What a non-blocking send does to the connection it addresses. *)
Definition deliver (data : list byte) (c : option sseConnection) : option sseConnection :=
  match c with
  | Some c =>
      if (length (ch c) <? chan_cap)%nat
      then Some {| endpointID := endpointID c; ch := ch c ++ [data] |}
      else Some c
  | None => None
  end.

(** [broadcastToSSE(endpointKey, event)], with [data] the outcome of
    [json.Marshal(event)]. *)
Definition broadcastToSSE (endpointKey : string) (data : option (list byte))
    (m : sseManager) : sseManager :=
  match connections m !! endpointKey with
  | None => m
  | Some conns =>
      if (size conns =? 0)%nat then m
      else match data with
           | None => m
           | Some d =>
               {| connections := connections m;
                  heap := set_fold (send_nonblocking d) (heap m) conns |}
           end
  end.

(** [RealtimeHandler], registration: a new connection (at the fresh
    address [conn]) is stored under the [endpoint] query parameter. *)
Definition register (slug : string) (conn : nat) (m : sseManager) : sseManager :=
  {| connections :=
       <[slug := {[conn]} ∪ default ∅ (connections m !! slug)]> (connections m);
     heap := <[conn := {| endpointID := slug; ch := [] |}]> (heap m) |}.

(** [RealtimeHandler], client disconnect: the connection is removed, the
    key dropped when it was the last one, and the channel closed. *)
Definition disconnect (slug : string) (conn : nat) (m : sseManager) : sseManager :=
  let rest := default ∅ (connections m !! slug) ∖ {[conn]} in
  {| connections :=
       if (size rest =? 0)%nat then delete slug (connections m)
       else <[slug := rest]> (connections m);
     heap := delete conn (heap m) |}.

(** The messages buffered for a connection. *)
Definition buffered (conn : nat) (m : sseManager) : list (list byte) :=
  match heap m !! conn with
  | Some c => ch c
  | None => []
  end.

End SSE.

(** ** handlers: signature verification and capture *)

Module Handlers.
Import GoStrings GoCrypto GoInt Store Http SSE.

(** The event handed to [broadcastToSSE]: a [models.Request] with the
    three fields set by [publishRequestEvent]. *)
Record Event := {
  ev_ID : string;
  ev_EndpointID : string;
  ev_Method : string
}.

(** The arguments of a spawned [triggerForwarding]. *)
Record ForwardTask := {
  task_endpointID : string;
  task_requestID : string;
  task_method : string;
  task_headersJSON : string;
  task_body : list byte
}.

(** Functions of the Go libraries that the handlers call and that are
    taken as given. *)
Record GoLib := {
  hmac_sha1 : list byte → list byte → list byte;
  hmac_sha256 : list byte → list byte → list byte;
  hmac_sha512 : list byte → list byte → list byte;
  json_Marshal_values : Header → string;
  json_Marshal_event : Event → option (list byte);
  strings_TrimSpace : string → string;
  strings_Trim : string → string → string;
  net_SplitHostPort : string → option (string * string);
  net_ParseIP : string → option string
}.

(** Process state touched by a capture. *)
Record World := {
  db : DB;
  globalRateLimiter : gmap string (list Z);
  sseMgr : sseManager;
  spawned : list ForwardTask
}.

(** What the environment decides for one capture: the clock reading,
    the fresh request id, the configuration, and which I/O fails. *)
Record Env := {
  now : Z;
  new_uuid : string;
  AppConfig_MaxBodySize : option Z;
  fault_endpoint_query : option string;
  fault_body_read : bool;
  fault_rate_query : option string;
  fault_settings_query : option string;
  fault_insert : option string
}.

Section WithLib.
Context (lib : GoLib).

(** The signature header: the first of the four that is not empty. *)
Definition signature_header (header : Header) : string :=
  let signature := Get header "X-Signature" in
  let signature :=
    if String.eqb signature "" then Get header "X-Hub-Signature-256" else signature in
  let signature :=
    if String.eqb signature "" then Get header "X-Stripe-Signature" else signature in
  let signature :=
    if String.eqb signature "" then Get header "Signature" else signature in
  signature.

(** Remove algorithm prefix if present (e.g., "sha256=..."). *)
Definition strip_algorithm (algorithm signature : string) : string :=
  let signature := TrimPrefix signature (algorithm +:+ "=") in
  let signature := TrimPrefix signature "sha256=" in
  let signature := TrimPrefix signature "sha1=" in
  let signature := TrimPrefix signature "sha512=" in
  signature.

(** The [switch algorithm]: hex of the HMAC of the body, SHA-256 unless
    the algorithm is ["sha1"] or ["sha512"]. *)
Definition expectedSignature (algorithm secret : string) (body : list byte) : string :=
  let key := list_byte_of_string secret in
  if String.eqb algorithm "sha1" then hex_EncodeToString (hmac_sha1 lib key body)
  else if String.eqb algorithm "sha512" then hex_EncodeToString (hmac_sha512 lib key body)
  else hex_EncodeToString (hmac_sha256 lib key body).

(** [VerifySignature]: the pair [(verified, err)]. *)
Definition VerifySignature (settings : QueryResult (option string * string))
    (header : Header) (body : list byte) : bool * option string :=
  match settings with
  | ErrNoRows => (true, None)
  | QueryErr e => (false, Some ("failed to fetch settings: " +:+ e))
  | Row (secret, algorithm) =>
      match secret with
      | None => (true, None)
      | Some secret =>
          if String.eqb secret "" then (true, None) else
          let signature := signature_header header in
          if String.eqb signature "" then (false, Some "no signature header found") else
          let signature := strip_algorithm algorithm signature in
          (hmac_Equal (list_byte_of_string signature)
             (list_byte_of_string (expectedSignature algorithm secret body)),
           None)
      end
  end.

(** [cleanIPAddress] *)
Definition cleanIPAddress (addr : string) : string :=
  let addr := strings_Trim lib addr "[]" in
  match net_SplitHostPort lib addr with
  | Some (host, _) => host
  | None =>
      match net_ParseIP lib addr with
      | Some parsedIP => parsedIP
      | None => EmptyString
      end
  end.

(** [publishRequestEvent]: the broadcast key is [endpointID.String()]. *)
Definition publishRequestEvent (endpointID requestID method : string)
    (m : sseManager) : sseManager :=
  let event := {| ev_ID := requestID; ev_EndpointID := endpointID; ev_Method := method |} in
  broadcastToSSE endpointID (json_Marshal_event lib event) m.

(** How the body is stored: [NULL] when empty, the text itself when it is
    valid UTF-8, its base64 encoding otherwise. *)
Definition body_for_storage (body : list byte) : option string :=
  if (0 <? length body)%nat then
    if Utf8.Valid body then Some (string_of_list_byte body)
    else Some (Base64.EncodeToString body)
  else None.

Definition with_limiter (w : World) (rl : gmap string (list Z)) : World :=
  {| db := db w; globalRateLimiter := rl; sseMgr := sseMgr w; spawned := spawned w |}.

(** The row that [CaptureHandler] inserts for a body that was read. *)
Definition request_row (env : Env) (r : Request) (endpointID : string)
    (body : list byte) : RequestRow :=
  let headersJSON := json_Marshal_values lib (Headers r) in
  let queryParamsJSON := json_Marshal_values lib (URL_Query r) in
  (* Client IP *)
  let forwarded := Get (Headers r) "X-Forwarded-For" in
  let rawIP :=
    if String.eqb forwarded "" then RemoteAddr r
    else strings_TrimSpace lib (first_field "," forwarded) in
  let cleanedIP := cleanIPAddress rawIP in
  let ip := if String.eqb cleanedIP "" then None else Some cleanedIP in
  let requestID := new_uuid env in
  let bodyStr := body_for_storage body in
  let contentType := Get (Headers r) "Content-Type" in
  let contentTypePtr := if String.eqb contentType "" then None else Some contentType in
  {| req_id := requestID; req_endpoint_id := endpointID;
     req_method := Method r; req_path := URL_Path r;
     req_headers := headersJSON; req_query_params := queryParamsJSON;
     req_ip := ip; req_body := bodyStr;
     req_body_size := Z.of_nat (length body);
     req_content_type := contentTypePtr |}.

(** [maxBodySize]: the configured limit, 10MB when there is no config. *)
Definition maxBodySize (env : Env) : Z :=
  default (10 * 1024 * 1024) (AppConfig_MaxBodySize env).

(** [io.ReadAll(io.LimitReader(r.Body, maxBodySize+1))] *)
Definition read_body (env : Env) (r : Request) : option (list byte) :=
  ReadAll_LimitReader (fault_body_read env) (Body r) (wrap64 (maxBodySize env + 1)).

(** The slug: [strings.Split(strings.TrimPrefix(r.URL.Path, "/e/"), "/")[0]] *)
Definition slug_of (r : Request) : string :=
  first_field "/" (TrimPrefix (URL_Path r) "/e/").

(** [CaptureHandler]: the response written and the state afterwards. *)
Definition CaptureHandler (w : World) (env : Env) (r : Request) : Response * World :=
  let slug := slug_of r in
  if String.eqb slug "" then (Error "Invalid endpoint" StatusBadRequest, w) else
  match query_endpoint (fault_endpoint_query env) (db w) slug with
  | ErrNoRows => (Error "Endpoint not found" StatusNotFound, w)
  | QueryErr e => (Error ("Database error: " +:+ e) StatusInternalServerError, w)
  | Row endpointID =>
  (* Read request body *)
  let maxBodySize := maxBodySize env in
  match read_body env r with
  | None => (Error "Failed to read request body" StatusInternalServerError, w)
  | Some body =>
  if maxBodySize <? Z.of_nat (length body)
  then (Error "Request body too large" StatusRequestEntityTooLarge, w) else
  (* Check rate limit *)
  let '((allowed, err), rl) :=
    RateLimit.CheckRateLimit (query_rate_limits (fault_rate_query env) (db w) endpointID)
      endpointID (now env) (globalRateLimiter w) in
  let w := with_limiter w rl in
  match err with
  | Some e => (Error e StatusTooManyRequests, w)
  | None =>
  if negb allowed then (Error "Rate limit exceeded" StatusTooManyRequests, w) else
  (* Verify HMAC signature if configured *)
  let '(verified, err) :=
    VerifySignature (query_hmac_settings (fault_settings_query env) (db w) endpointID)
      (Headers r) body in
  match err with
  | Some e =>
      (Error ("Signature verification error: " +:+ e) StatusInternalServerError, w)
  | None =>
  if negb verified then (Error "Invalid signature" StatusUnauthorized, w) else
  let headersJSON := json_Marshal_values lib (Headers r) in
  let requestID := new_uuid env in
  (* Insert request into database *)
  match fault_insert env with
  | Some e => (Error ("Failed to save request: " +:+ e) StatusInternalServerError, w)
  | None =>
      ({| status := StatusOK; payload := "OK" |},
       {| db := insert_request (request_row env r endpointID body) (db w);
          globalRateLimiter := globalRateLimiter w;
          (* Publish event for realtime updates *)
          sseMgr := publishRequestEvent endpointID requestID (Method r) (sseMgr w);
          (* Trigger forwarding asynchronously *)
          spawned := spawned w ++
            [{| task_endpointID := endpointID; task_requestID := requestID;
                task_method := Method r; task_headersJSON := headersJSON;
                task_body := body |}] |})
  end end end end end.

(** The request gets as far as the rate limiter: the slug resolves to
    [endpointID] and [body] was read and is within the size limit. *)
Definition reaches_rate_limit (w : World) (env : Env) (r : Request)
    (endpointID : string) (body : list byte) : Prop :=
  slug_of r ≠ "" ∧ fault_endpoint_query env = None
  ∧ endpoints (db w) !! slug_of r = Some endpointID
  ∧ read_body env r = Some body
  ∧ Z.of_nat (length body) ≤ maxBodySize env.

(** The request gets as far as signature verification: it is moreover
    admitted by the rate limiter. *)
Definition reaches_signature (w : World) (env : Env) (r : Request)
    (endpointID : string) (body : list byte) : Prop :=
  reaches_rate_limit w env r endpointID body
  ∧ (RateLimit.CheckRateLimit
       (query_rate_limits (fault_rate_query env) (db w) endpointID)
       endpointID (now env) (globalRateLimiter w)).1 = (true, None).

(** No I/O of this capture fails. *)
Definition no_faults (env : Env) : Prop :=
  fault_endpoint_query env = None ∧ fault_body_read env = false
  ∧ fault_rate_query env = None ∧ fault_settings_query env = None
  ∧ fault_insert env = None.





End WithLib.

End Handlers.

(** ** Values of type [interface{}] produced by [encoding/json] *)

Module Json.

#[warnings="-register-all"]
Inductive Value :=
| Null
| Bool (b : bool)
| Number (q : Q)
| Str (s : string)
| Array (l : list Value)
| Object (m : gmap string Value).



End Json.

(** A value or an error message. *)
Inductive result (A : Type) :=
| Ok (a : A)
| Err (msg : string).
Arguments Ok {A} a.
Arguments Err {A} msg.

(** ** package transform *)

Module Transform.
Import Json.

(** A row of [transformations]; [language] and [apply_to] are nullable
    columns. *)
Record Transformation := {
  t_ID : string;
  t_EndpointID : string;
  t_Name : string;
  t_Language : option string;
  t_Script : string;
  t_ApplyTo : option string;
  t_Enabled : bool;
  t_CreatedAt : Z
}.

(** The script engines and library functions behind
    [ExecuteTransformation]. *)
Record Engines := {
  strings_ToLower : string → string;
  json_Unmarshal : string → option Value;
  executeJavaScript : string → Value → result Value;
  executeJQ : string → Value → result Value;
  executeJSONata : string → Value → result Value
}.

(** The [WHERE] clause of the query of [ApplyTransformations]. *)
Definition selected (endpointID applyTo : string) (t : Transformation) : Prop :=
  t_EndpointID t = endpointID ∧ t_Enabled t = true
  ∧ (t_ApplyTo t = Some applyTo ∨ t_ApplyTo t = Some "both").

#[global] Instance selected_dec endpointID applyTo t :
  Decision (selected endpointID applyTo t).
Proof. unfold selected. apply _. Defined.

(** [ORDER BY created_at ASC] *)
Definition created_before (t1 t2 : Transformation) : Prop :=
  t_CreatedAt t1 ≤ t_CreatedAt t2.

#[global] Instance created_before_dec t1 t2 : Decision (created_before t1 t2).
Proof. unfold created_before. apply _. Defined.

(** [SELECT id, name, language, script, apply_to, enabled FROM
    transformations WHERE endpoint_id = $1 AND enabled = TRUE AND apply_to
    IN ($2, 'both') ORDER BY created_at ASC] *)
Definition query_transformations (table : list Transformation)
    (endpointID applyTo : string) : list Transformation :=
  merge_sort created_before (filter (selected endpointID applyTo) table).

Section WithEngines.
Context (eng : Engines).

(** [ExecuteTransformation] *)
Definition ExecuteTransformation (language script : string) (input : Value)
    : result Value :=
  let inputData :=
    match input with
    | Str inputStr =>
        match json_Unmarshal eng inputStr with
        | Some v => v
        | None => Str inputStr
        end
    | _ => input
    end in
  let l := strings_ToLower eng language in
  if String.eqb l "javascript" || String.eqb l "js" then executeJavaScript eng script inputData
  else if String.eqb l "jq" then executeJQ eng script inputData
  else if String.eqb l "jsonata" then executeJSONata eng script inputData
  else Err ("unsupported transformation language: " +:+ language).

(** One iteration of the [for rows.Next()] loop: a row that does not
    scan (NULL language) or whose script fails leaves [result] as it is. *)
Definition apply_row (result : Value) (t : Transformation) : Value :=
  match t_Language t with
  | None => result
  | Some language =>
      match ExecuteTransformation language (t_Script t) result with
      | Ok transformed => transformed
      | Err _ => result
      end
  end.

(** [ApplyTransformations]; [fault] is the error of the query, if any. *)
Definition ApplyTransformations (fault : option string) (table : list Transformation)
    (endpointID applyTo : string) (data : Value) : result Value :=
  match fault with
  | Some e => Err ("failed to fetch transformations: " +:+ e)
  | None =>
      Ok (foldl apply_row data (query_transformations table endpointID applyTo))
  end.

End WithEngines.

(** The chain as the specification words it: go through the selected
    transformations in order; one that errors is skipped, the others feed
    their output to the next. *)
Fixpoint chain (exec : Transformation → Value → result Value)
    (ts : list Transformation) (v : Value) : Value :=
  match ts with
  | [] => v
  | t :: ts' =>
      match exec t v with
      | Ok v' => chain exec ts' v'
      | Err _ => chain exec ts' v
      end
  end.

(** What running one row amounts to: scan, then execute. *)
Definition run_row (eng : Engines) (t : Transformation) (v : Value) : result Value :=
  match t_Language t with
  | None => Err Store.scan_null_error
  | Some language => ExecuteTransformation eng language (t_Script t) v
  end.

End Transform.

(** ** handlers: forwarding with retries *)

Module Forward.
Import Json GoInt.


(** A row of [forward_attempts], as inserted by [recordForwardAttempt]. *)
Record ForwardAttempt := {
  att_request_id : string;
  att_rule_id : string;
  att_attempt_number : Z;
  att_status : string;
  att_response_status : Z;
  att_response_headers : option string;
  att_response_body : option string;
  att_error_message : option string;
  att_duration_ms : option Z
}.

(** What happens to one outgoing call. *)
Inductive HttpOutcome :=
| NewRequestError (msg : string)
| TransportError (msg : string) (durationMs : Z)
| Responded (statusCode : Z) (respHeadersJSON : string) (respBody : list byte)
    (durationMs : Z).

(** The environment of a forwarding task: the downstream target, the
    store's answer to each insert and to the two transformation queries,
    and the JSON library. *)
Record Env := {
  http_Do : Z → string → string → gmap string Value → list byte → HttpOutcome;
  insert_ok : Z → bool;
  fault_headers_query : option string;
  fault_body_query : option string;
  transformations : list Transform.Transformation;
  json_Unmarshal_map : string → option (gmap string Value);
  json_Marshal : Value → option (list byte);
  json_to_map : Value → gmap string Value
}.

(** Effects of a forwarding task: rows of [forward_attempts] and the
    backoff sleeps taken, oldest first. *)
Record World := {
  forward_attempts : list ForwardAttempt;
  slept : list Z
}.







Definition binary_marker : string :=
  "[BINARY DATA - Base64 Encoded]" +:+ GoStrings.LF.


Section WithEnv.
Context (env : Env).





End WithEnv.


(** [a, a+1, ..., a+k-1] *)
Fixpoint count_from (a : Z) (k : nat) : list Z :=
  match k with
  | O => []
  | S k' => a :: count_from (a + 1) k'
  end.

(** [1, 2, ..., n] *)
Definition one_to (n : nat) : list Z := count_from 1 n.







End Forward.

(** ** Sample data *)

Module Samples.
Import Store Http SSE Handlers.

(** A stand-in for the Go libraries: a keyed digest that is not a real
    HMAC, the identity for trimming, and no host/port parsing. *)
Definition lib : GoLib :=
  {| hmac_sha1 := λ key msg, key ++ msg;
     hmac_sha256 := λ key msg, msg ++ key;
     hmac_sha512 := λ key msg, key ++ msg ++ key;
     json_Marshal_values := λ _, "{}";
     json_Marshal_event := λ ev, Some (list_byte_of_string (ev_ID ev));
     strings_TrimSpace := λ s, s;
     strings_Trim := λ s _, s;
     net_SplitHostPort := λ _, None;
     net_ParseIP := λ s, Some s |}.

Definition slug : string := "fh_abc12345".
Definition endpointID : string := "123e4567-e89b-12d3-a456-426614174000".

Definition settings (secret : option string) (perMinute perDay : option Z) : SettingsRow :=
  {| hmac_secret := secret; hmac_algorithm := Some "sha256";
     rate_limit_per_minute := perMinute; rate_limit_per_hour := None;
     rate_limit_per_day := perDay |}.

(** One endpoint, with the given settings row (if any). *)
Definition world (row : option SettingsRow) : World :=
  {| db := {| endpoints := {[ slug := endpointID ]};
              endpoint_settings :=
                match row with
                | Some s => {[ endpointID := s ]}
                | None => ∅
                end;
              requests := [] |};
     globalRateLimiter := ∅;
     sseMgr := sseMgr_init;
     spawned := [] |}.

Definition env_at (t : Z) (uuid : string) : Env :=
  {| now := t; new_uuid := uuid; AppConfig_MaxBodySize := None;
     fault_endpoint_query := None; fault_body_read := false;
     fault_rate_query := None; fault_settings_query := None;
     fault_insert := None |}.

(** The same, with [MAX_BODY_SIZE] configured. *)
Definition env_with_max (max : Z) (t : Z) (uuid : string) : Env :=
  {| now := t; new_uuid := uuid; AppConfig_MaxBodySize := Some max;
     fault_endpoint_query := None; fault_body_read := false;
     fault_rate_query := None; fault_settings_query := None;
     fault_insert := None |}.

(** [POST /e/fh_abc12345] with body [{"v":1}] and the given headers. *)
Definition post (headers : Header) : Request :=
  {| Method := "POST"; URL_Path := "/e/fh_abc12345"; URL_Query := ∅;
     Headers := headers; RemoteAddr := "192.0.2.1:4711";
     Body := [x7b; x22; x76; x22; x3a; x31; x7d] |}.


(** Settings with a per-day limit of 1 and nothing else. *)
Definition one_per_day : RateLimit.Limits :=
  {| RateLimit.rateLimitPerMin := None; RateLimit.rateLimitPerHour := None;
     RateLimit.rateLimitPerDay := Some 1 |}.

(** An admission request for endpoint ["ep"] at [t] seconds. *)
Definition call_at (lim : RateLimit.Limits) (t : Z) : RateLimit.call :=
  {| RateLimit.c_settings := Some lim; RateLimit.c_key := "ep";
     RateLimit.c_now := t * GoTime.Second |}.

(** Script engines: JavaScript and the path dialect give the input back,
    the query dialect always fails. *)
Definition engines : Transform.Engines :=
  {| Transform.strings_ToLower := λ s, s;
     Transform.json_Unmarshal := λ _, None;
     Transform.executeJavaScript := λ _ v, Ok v;
     Transform.executeJQ := λ _ _, Err "jq: error";
     Transform.executeJSONata := λ _ v, Ok v |}.






(** Three transformations of the sample endpoint: a query that fails
    (created first), a script (created second), and a disabled script. *)
Definition transformation (name language : string) (enabled : bool) (created : Z)
    : Transform.Transformation :=
  {| Transform.t_ID := name; Transform.t_EndpointID := endpointID;
     Transform.t_Name := name; Transform.t_Language := Some language;
     Transform.t_Script := "input"; Transform.t_ApplyTo := Some "request";
     Transform.t_Enabled := enabled; Transform.t_CreatedAt := created |}.

Definition transformations : list Transform.Transformation :=
  [ transformation "script" "javascript" true 20;
    transformation "query" "jq" true 10;
    transformation "off" "javascript" false 5 ].


End Samples.

(* ================================================================= *)
(** * Part II: properties *)
(* ================================================================= *)

Module RateLimitFacts.
Import GoTime RateLimit.

Lemma keep_after_filter cutoff requests :
  keep_after cutoff requests = filter (λ t, cutoff < t) requests.
Proof.
  unfold keep_after.
  enough (H : ∀ acc, foldl (λ valid t, if After t cutoff then valid ++ [t] else valid)
                       acc requests = acc ++ filter (λ t, cutoff < t) requests)
    by apply (H []).
  induction requests as [|t ts IH]; intros acc; simpl.
  - by rewrite app_nil_r.
  - rewrite IH. unfold After. rewrite filter_cons.
    case_bool_decide; case_decide; try lia; [by rewrite <- app_assoc | done].
Qed.

Lemma count_after_filter cutoff requests :
  count_after cutoff requests = Z.of_nat (length (filter (λ t, cutoff < t) requests)).
Proof.
  unfold count_after.
  enough (H : ∀ acc, foldl (λ count t, if After t cutoff then count + 1 else count)
                       acc requests
                     = acc + Z.of_nat (length (filter (λ t, cutoff < t) requests)))
    by apply (H 0).
  induction requests as [|t ts IH]; intros acc; simpl.
  - lia.
  - rewrite IH. unfold After. rewrite filter_cons.
    case_bool_decide; case_decide; simpl; lia.
Qed.

End RateLimitFacts.

Module RateLimitProofs.
Import GoTime RateLimit RateLimitFacts.

Ltac time_lia := unfold Hour, Minute, Second, Millisecond in *; lia.

Lemma check_limit_spec limit window err now requests :
  check_limit limit window err now requests =
    match limit with
    | Some l =>
        if bool_decide (l ≤ Z.of_nat (length (filter (λ t, now - window < t) requests)))
        then Some (err l) else None
    | None => None
    end.
Proof.
  unfold check_limit, Add. destruct limit as [l|]; [|done].
  rewrite count_after_filter.
  replace (now + - window) with (now - window) by lia. done.
Qed.


Lemma cleaned_lookup (rl : limiter) key cutoff :
  default [] ((match rl !! key with
               | Some requests => <[key := keep_after cutoff requests]> rl
               | None => rl
               end) !! key)
  = filter (λ t, cutoff < t) (default [] (rl !! key)).
Proof.
  destruct (rl !! key) as [reqs|] eqn:E.
  - rewrite lookup_insert_eq. simpl. apply keep_after_filter.
  - by rewrite E.
Qed.



Lemma filter_after_weaker (c1 c2 : Z) (l : list Z) :
  c1 ≤ c2 → filter (λ t, c1 < t) (filter (λ t, c2 < t) l) = filter (λ t, c2 < t) l.
Proof.
  intros Hle. rewrite list_filter_filter. apply list_filter_iff. intros t. lia.
Qed.





End RateLimitProofs.

Module RateLimitLemmas.
Import GoTime RateLimit RateLimitFacts RateLimitProofs.








(** The per-day check runs on the list that was just cut down to the
    last hour, so the count it compares is the count of the last hour. *)
Lemma per_day_counts_last_hour lim key now (rl : limiter) d :
  rateLimitPerMin lim = None → rateLimitPerHour lim = None →
  rateLimitPerDay lim = Some d →
  (CheckRateLimit (Some lim) key now rl).1.1 = false
  ↔ d ≤ recent now Hour (default [] (rl !! key)).
Proof.
  intros Hm Hh Hd. unfold CheckRateLimit.
  pose proof (cleaned_lookup rl key (Add now (- (1 * Hour)))) as Hc.
  replace (Add now (- (1 * Hour))) with (now - Hour) in * by (unfold Add; lia).
  set (rl1 := match rl !! key with Some _ => _ | None => _ end) in *.
  rewrite Hc, !check_limit_spec, Hm, Hh, Hd.
  rewrite filter_after_weaker by time_lia. fold (recent now Hour (default [] (rl !! key))).
  case_bool_decide; simpl; split; intros; done.
Qed.

End RateLimitLemmas.

Module Base64Facts.
Import Base64.

Lemma sextets_checked :
  forallb (λ k, match dec6 (enc6 (N.of_nat k)) with
                | Some m => (m =? N.of_nat k)%N && negb (Ascii.eqb (enc6 (N.of_nat k)) pad)
                | None => false
                end) (seq 0 64) = true.
Proof. vm_compute. reflexivity. Qed.

Lemma sextet n :
  (n < 64)%N → dec6 (enc6 n) = Some n ∧ Ascii.eqb (enc6 n) pad = false.
Proof.
  intros Hn. pose proof sextets_checked as H.
  rewrite forallb_forall in H.
  assert (Hin : In (N.to_nat n) (seq 0 64)) by (apply in_seq; lia).
  specialize (H _ Hin). rewrite N2Nat.id in H.
  destruct (dec6 (enc6 n)) as [m|]; [|done].
  apply andb_prop in H as [Hm Hp].
  apply N.eqb_eq in Hm. apply negb_true_iff in Hp. by subst.
Qed.

Lemma dec6_enc6 n : (n < 64)%N → dec6 (enc6 n) = Some n.
Proof. intros Hn. by apply sextet. Qed.

Lemma enc6_not_pad n : (n < 64)%N → Ascii.eqb (enc6 n) pad = false.
Proof. intros Hn. by apply sextet. Qed.

Lemma of_N_to_N b : of_N (Byte.to_N b) = b.
Proof. unfold of_N. by rewrite Byte.of_to_N. Qed.

Ltac euclid := Z.to_euclidean_division_equations; lia.

(** Three bytes survive the trip through four sextets. *)
Lemma group_roundtrip a b c :
  let x := Byte.to_N a in let y := Byte.to_N b in let z := Byte.to_N c in
  decode_group (enc6 (x / 4)) (enc6 (x mod 4 * 16 + y / 16))
               (enc6 (y mod 16 * 4 + z / 64)) (enc6 (z mod 64))
  = Some [a; b; c].
Proof.
  intros x y z.
  pose proof (Byte.to_N_bounded a). pose proof (Byte.to_N_bounded b).
  pose proof (Byte.to_N_bounded c). fold x y z in H, H0, H1.
  unfold decode_group.
  rewrite !dec6_enc6 by (zify; euclid). simpl.
  replace (x / 4 * 4 + (x mod 4 * 16 + y / 16) / 16)%N with x by (zify; euclid).
  replace ((x mod 4 * 16 + y / 16) mod 16 * 16 + (y mod 16 * 4 + z / 64) / 4)%N
    with y by (zify; euclid).
  replace ((y mod 16 * 4 + z / 64) mod 4 * 64 + z mod 64)%N with z by (zify; euclid).
  subst x y z. by rewrite !of_N_to_N.
Qed.

Lemma last_one_roundtrip a :
  let x := Byte.to_N a in
  decode_last (enc6 (x / 4)) (enc6 (x mod 4 * 16)) pad pad = Some [a].
Proof.
  intros x. pose proof (Byte.to_N_bounded a) as H. fold x in H.
  unfold decode_last. rewrite Ascii.eqb_refl.
  rewrite !dec6_enc6 by (zify; euclid). simpl.
  replace (x / 4 * 4 + x mod 4 * 16 / 16)%N with x by (zify; euclid).
  subst x. by rewrite of_N_to_N.
Qed.

Lemma last_two_roundtrip a b :
  let x := Byte.to_N a in let y := Byte.to_N b in
  decode_last (enc6 (x / 4)) (enc6 (x mod 4 * 16 + y / 16)) (enc6 (y mod 16 * 4)) pad
  = Some [a; b].
Proof.
  intros x y. pose proof (Byte.to_N_bounded a). pose proof (Byte.to_N_bounded b).
  fold x y in H, H0.
  unfold decode_last. rewrite Ascii.eqb_refl.
  rewrite enc6_not_pad by (zify; euclid).
  rewrite !dec6_enc6 by (zify; euclid). simpl.
  replace (x / 4 * 4 + (x mod 4 * 16 + y / 16) / 16)%N with x by (zify; euclid).
  replace ((x mod 4 * 16 + y / 16) mod 16 * 16 + y mod 16 * 4 / 4)%N
    with y by (zify; euclid).
  subst x y. by rewrite !of_N_to_N.
Qed.

Lemma encode_nonempty src :
  src ≠ [] → list_ascii_of_string (EncodeToString src) ≠ [].
Proof. destruct src as [|a [|b [|c rest]]]; done. Qed.

Lemma decode_chars_more c1 c2 c3 c4 e l :
  decode_chars (c1 :: c2 :: c3 :: c4 :: e :: l)
  = g ← decode_group c1 c2 c3 c4; r ← decode_chars (e :: l); Some (g ++ r).
Proof. reflexivity. Qed.

(** Decoding undoes encoding; by induction on the number of bytes, three
    at a time. *)
Lemma decode_encode_chars n : ∀ src,
  (length src < n)%nat →
  decode_chars (list_ascii_of_string (EncodeToString src)) = Some src.
Proof.
  induction n as [|n IH]; intros src Hlen; [lia|].
  destruct src as [|a [|b [|c rest]]].
  - done.
  - apply last_one_roundtrip.
  - apply last_two_roundtrip.
  - cbn [EncodeToString list_ascii_of_string].
    destruct rest as [|d rest'].
    + cbn [EncodeToString list_ascii_of_string decode_chars]. unfold decode_last.
      pose proof (Byte.to_N_bounded c).
      rewrite enc6_not_pad by (zify; euclid). apply group_roundtrip.
    + pose proof (encode_nonempty (d :: rest') ltac:(done)) as Hne.
      destruct (list_ascii_of_string (EncodeToString (d :: rest'))) as [|e l] eqn:E; [done|].
      rewrite decode_chars_more, group_roundtrip.
      rewrite <- E, IH by (simpl in *; lia). done.
Qed.

(** Round trip of [StdEncoding]. *)
Lemma DecodeString_EncodeToString src :
  DecodeString (EncodeToString src) = Some src.
Proof. unfold DecodeString. apply (decode_encode_chars (S (length src))). lia. Qed.

(** The alphabet has no [[], so no encoding starts with the marker that
    the forwarder puts in front of binary response bodies. *)
Lemma encode_no_bracket src c s :
  EncodeToString src = String c s → c ≠ "["%char.
Proof.
  assert (Hall : ∀ n, (n < 64)%N → enc6 n ≠ "["%char).
  { intros n Hn. assert (Hb : forallb (λ k, negb (Ascii.eqb (enc6 (N.of_nat k)) "["))
                             (seq 0 64) = true) by (vm_compute; reflexivity).
    rewrite forallb_forall in Hb.
    assert (Hin : In (N.to_nat n) (seq 0 64)) by (apply in_seq; lia).
    specialize (Hb _ Hin). rewrite N2Nat.id in Hb.
    intros Heq. by rewrite Heq in Hb. }
  destruct src as [|a [|b [|c' rest]]]; [done|..];
    pose proof (Byte.to_N_bounded a); cbn [EncodeToString];
    intros [= <- _]; apply Hall; zify; euclid.
Qed.

End Base64Facts.

Module HandlerFacts.
Import GoStrings GoCrypto GoInt Store Http SSE Handlers.

Section WithLib.
Context (lib : GoLib).

(** Every capture either fails, and then leaves the store, the SSE
    manager and the forwarding queue alone, or passes every gate and then
    inserts exactly one row and publishes under the endpoint id. *)
Lemma capture_outcome w env r :
  let res := CaptureHandler lib w env r in
  (status res.1 ≠ StatusOK ∧ db res.2 = db w ∧ sseMgr res.2 = sseMgr w
   ∧ spawned res.2 = spawned w)
  ∨ (∃ endpointID body,
       res.1 = {| status := StatusOK; payload := "OK" |}
       ∧ slug_of r ≠ ""
       ∧ fault_endpoint_query env = None
       ∧ endpoints (db w) !! slug_of r = Some endpointID
       ∧ read_body env r = Some body
       ∧ Z.of_nat (length body) ≤ maxBodySize env
       ∧ (RateLimit.CheckRateLimit
            (query_rate_limits (fault_rate_query env) (db w) endpointID)
            endpointID (now env) (globalRateLimiter w)).1 = (true, None)
       ∧ VerifySignature lib
           (query_hmac_settings (fault_settings_query env) (db w) endpointID)
           (Headers r) body = (true, None)
       ∧ fault_insert env = None
       ∧ db res.2 = insert_request (request_row lib env r endpointID body) (db w)
       ∧ sseMgr res.2
         = publishRequestEvent lib endpointID (new_uuid env) (Method r) (sseMgr w)).
Proof.
  unfold CaptureHandler.
  destruct (String.eqb (slug_of r) "") eqn:Hslug; [left; done|].
  apply String.eqb_neq in Hslug.
  unfold query_endpoint.
  destruct (fault_endpoint_query env) eqn:Hfe; [left; done|].
  destruct (endpoints (db w) !! slug_of r) as [endpointID|] eqn:Hep; [|left; done].
  destruct (read_body env r) as [body|] eqn:Hread; [|left; done].
  destruct (maxBodySize env <? Z.of_nat (length body)) eqn:Hsize; [left; done|].
  apply Z.ltb_ge in Hsize.
  destruct (RateLimit.CheckRateLimit _ _ _ _) as [[allowed err] rl] eqn:Hrate.
  destruct err as [e|]; [left; done|].
  destruct allowed; simpl; [|left; done].
  destruct (VerifySignature _ _ _ _) as [verified err] eqn:Hsig.
  destruct err as [e|]; [left; done|].
  destruct verified; simpl; [|left; done].
  destruct (fault_insert env) eqn:Hins; [left; done|].
  right. exists endpointID, body. simpl. repeat split; try done. by rewrite Hrate.
Qed.





(** With a secret configured and no signature header, verification ends
    in an error. *)
Lemma verify_without_header secret algorithm header body :
  secret ≠ "" → signature_header header = "" →
  VerifySignature lib (Row (Some secret, algorithm)) header body
  = (false, Some "no signature header found").
Proof.
  intros Hsec Hsig. unfold VerifySignature.
  apply String.eqb_neq in Hsec. by rewrite Hsec, Hsig.
Qed.

Lemma signature_header_empty header :
  signature_header header = ""
  ↔ Get header "X-Signature" = "" ∧ Get header "X-Hub-Signature-256" = ""
    ∧ Get header "X-Stripe-Signature" = "" ∧ Get header "Signature" = "".
Proof.
  unfold signature_header.
  generalize (Get header "X-Signature") (Get header "X-Hub-Signature-256")
    (Get header "X-Stripe-Signature") (Get header "Signature").
  intros a b c d.
  destruct (String.eqb_spec a "") as [->|Ha]; simpl.
  2: { apply String.eqb_neq in Ha as Ha'. rewrite !Ha'. intuition. }
  destruct (String.eqb_spec b "") as [->|Hb]; simpl.
  2: { apply String.eqb_neq in Hb as Hb'. rewrite !Hb'. intuition. }
  destruct (String.eqb_spec c "") as [->|Hc]; simpl; intuition.
Qed.

(** The handler, from the rate limiter on. *)
Lemma capture_at_rate_limit w env r endpointID body :
  reaches_rate_limit w env r endpointID body →
  CaptureHandler lib w env r =
    let rate := RateLimit.CheckRateLimit
                  (query_rate_limits (fault_rate_query env) (db w) endpointID)
                  endpointID (now env) (globalRateLimiter w) in
    let w1 := with_limiter w rate.2 in
    match rate.1 with
    | (_, Some e) => (Error e StatusTooManyRequests, w1)
    | (false, None) => (Error "Rate limit exceeded" StatusTooManyRequests, w1)
    | (true, None) =>
        match VerifySignature lib
                (query_hmac_settings (fault_settings_query env) (db w) endpointID)
                (Headers r) body with
        | (_, Some e) =>
            (Error ("Signature verification error: " +:+ e) StatusInternalServerError, w1)
        | (false, None) => (Error "Invalid signature" StatusUnauthorized, w1)
        | (true, None) =>
            match fault_insert env with
            | Some e =>
                (Error ("Failed to save request: " +:+ e) StatusInternalServerError, w1)
            | None =>
                ({| status := StatusOK; payload := "OK" |},
                 {| db := insert_request (request_row lib env r endpointID body) (db w);
                    globalRateLimiter := rate.2;
                    sseMgr := publishRequestEvent lib endpointID (new_uuid env)
                                (Method r) (sseMgr w);
                    spawned := spawned w ++
                      [{| task_endpointID := endpointID; task_requestID := new_uuid env;
                          task_method := Method r;
                          task_headersJSON := json_Marshal_values lib (Headers r);
                          task_body := body |}] |})
            end
        end
    end.
Proof.
  intros (Hslug & Hfe & Hep & Hread & Hsize). unfold CaptureHandler.
  apply String.eqb_neq in Hslug. rewrite Hslug. unfold query_endpoint.
  rewrite Hfe, Hep, Hread. apply Z.ltb_ge in Hsize. rewrite Hsize.
  destruct (RateLimit.CheckRateLimit _ _ _ _) as [[allowed err] rl]. simpl.
  destruct err as [e|]; [by destruct allowed|].
  destruct allowed; simpl; [|done].
  destruct (VerifySignature _ _ _ _) as [verified err].
  destruct err as [e|]; [by destruct verified|].
  by destruct verified.
Qed.

End WithLib.

End HandlerFacts.

Module CaptureFacts.
Import GoStrings GoCrypto GoInt Store Http SSE Handlers HandlerFacts.

Lemma wrap64_small z : - 2 ^ 63 ≤ z < 2 ^ 63 → wrap64 z = z.
Proof. intros Hz. unfold wrap64. rewrite Z.mod_small; lia. Qed.

Lemma requests_insert row d : requests (insert_request row d) = requests d ++ [row].
Proof. done. Qed.

Section WithLib.
Context (lib : GoLib).

(** The body handed on by [read_body] is a prefix of what was sent, and
    all of it when the limit does not cut it. *)
Lemma read_body_whole env r :
  fault_body_read env = false → maxBodySize env < 2 ^ 63 - 1 →
  Z.of_nat (length (Body r)) ≤ maxBodySize env + 1 →
  read_body env r = Some (Body r).
Proof.
  intros Hf Hmax Hlen. unfold read_body, ReadAll_LimitReader. rewrite Hf.
  rewrite wrap64_small by lia. f_equal. apply take_ge. lia.
Qed.

Lemma read_body_length env r body :
  read_body env r = Some body → (length body ≤ length (Body r))%nat.
Proof.
  unfold read_body, ReadAll_LimitReader. destruct (fault_body_read env); [done|].
  intros [= <-]. rewrite length_take. lia.
Qed.


(** The answer is 413 only for a body that was read and is too long. *)
Lemma too_large_inv w env r :
  status (CaptureHandler lib w env r).1 = StatusRequestEntityTooLarge →
  ∃ body, read_body env r = Some body ∧ maxBodySize env < Z.of_nat (length body).
Proof.
  unfold CaptureHandler.
  destruct (String.eqb (slug_of r) ""); [done|].
  destruct (query_endpoint _ _ _) as [|e|endpointID]; [done|done|].
  destruct (read_body env r) as [body|] eqn:Hread; [|done].
  destruct (maxBodySize env <? Z.of_nat (length body)) eqn:Hsize.
  { intros _. exists body. split; [done|]. by apply Z.ltb_lt. }
  destruct (RateLimit.CheckRateLimit _ _ _ _) as [[allowed err] rl].
  destruct err as [e|]; [done|].
  destruct allowed; simpl; [|done].
  destruct (VerifySignature _ _ _ _) as [verified err].
  destruct err as [e|]; [done|].
  destruct verified; simpl; [|done].
  by destruct (fault_insert env).
Qed.

(** A capture on an endpoint without a settings row, with no I/O fault
    and a body within the limit, is persisted. *)
Lemma capture_plain w env r endpointID :
  no_faults env → slug_of r ≠ "" →
  endpoints (db w) !! slug_of r = Some endpointID →
  endpoint_settings (db w) !! endpointID = None →
  maxBodySize env < 2 ^ 63 - 1 →
  Z.of_nat (length (Body r)) ≤ maxBodySize env →
  let res := CaptureHandler lib w env r in
  res.1 = {| status := StatusOK; payload := "OK" |}
  ∧ requests (db res.2) = requests (db w) ++ [request_row lib env r endpointID (Body r)].
Proof.
  intros (Hf1 & Hf2 & Hf3 & Hf4 & Hf5) Hslug Hep Hset Hmax Hlen res. subst res.
  assert (Hread : read_body env r = Some (Body r)) by (apply read_body_whole; [done|done|lia]).
  rewrite (capture_at_rate_limit lib w env r endpointID (Body r)) by done.
  unfold query_rate_limits, query_hmac_settings. rewrite Hf3, Hf4, Hset, Hf5. done.
Qed.

(** The row of a persisted capture. *)
Lemma persisted_row w env r row :
  requests (db (CaptureHandler lib w env r).2) = requests (db w) ++ [row] →
  ∃ endpointID body,
    read_body env r = Some body ∧ row = request_row lib env r endpointID body.
Proof.
  intros Hrow.
  destruct (capture_outcome lib w env r) as [(_ & Hdb & _)|Hok].
  - rewrite Hdb in Hrow.
    apply (f_equal length) in Hrow. rewrite length_app in Hrow. simpl in Hrow. lia.
  - destruct Hok as (endpointID & body & _ & _ & _ & _ & Hread & _ & _ & _ & _ & Hdb & _).
    rewrite Hdb, requests_insert in Hrow.
    apply app_inv_head in Hrow. injection Hrow as <-. by exists endpointID, body.
Qed.

End WithLib.

Lemma prefix_append p s : String.prefix p (p +:+ s) = true.
Proof.
  induction p as [|c p IH]; simpl; [by destruct s|].
  by destruct (ascii_dec c c).
Qed.

(** Stripping a prefix that is not there changes nothing. *)
Lemma TrimPrefix_absent s p : HasPrefix s p = false → TrimPrefix s p = s.
Proof. intros H. unfold TrimPrefix. by rewrite H. Qed.

Lemma encoded_has_no_marker body :
  HasPrefix (Base64.EncodeToString body) Forward.binary_marker = false.
Proof.
  destruct (Base64.EncodeToString body) as [|c s] eqn:E; [done|].
  pose proof (Base64Facts.encode_no_bracket body c s E) as Hc.
  destruct (HasPrefix (String c s) Forward.binary_marker) eqn:H; [exfalso|done].
  unfold HasPrefix in H. apply prefix_correct in H.
  unfold Forward.binary_marker in H. simpl in H. injection H as H _. by subst c.
Qed.

End CaptureFacts.

Module SSEFacts.
Import SSE.

Lemma send_lookup data x (h : gmap nat sseConnection) conn :
  send_nonblocking data x h !! conn
  = if decide (conn = x) then deliver data (h !! x) else h !! conn.
Proof.
  unfold send_nonblocking, deliver. case_decide as Heq.
  - subst conn. destruct (h !! x) as [c|] eqn:E; [|done].
    destruct (length (ch c) <? chan_cap)%nat; [by rewrite lookup_insert_eq|done].
  - destruct (h !! x) as [c|] eqn:E; [|done].
    destruct (length (ch c) <? chan_cap)%nat; [by rewrite lookup_insert_ne|done].
Qed.

(** The fan-out loop: each connection of the set gets one non-blocking
    send, the others are not touched; the order of the iteration does not
    matter. *)
Lemma fanout_lookup data (h : gmap nat sseConnection) (conns : gset nat) conn :
  set_fold (send_nonblocking data) h conns !! conn
  = if decide (conn ∈ conns) then deliver data (h !! conn) else h !! conn.
Proof.
  revert conn.
  pose (P := λ (r : gmap nat sseConnection) (X : gset nat),
               ∀ conn, r !! conn
                       = if decide (conn ∈ X) then deliver data (h !! conn) else h !! conn).
  enough (HP : P (set_fold (send_nonblocking data) h conns) conns) by exact HP.
  apply (set_fold_ind_L P); unfold P.
  - intros conn. rewrite decide_False; [done|set_solver].
  - intros x X r Hx IH conn. rewrite send_lookup.
    destruct (decide (conn = x)) as [->|Hne].
    + rewrite decide_True by set_solver. rewrite IH, decide_False; done.
    + rewrite IH. destruct (decide (conn ∈ X)).
      * rewrite decide_True; [done|by apply elem_of_union_r].
      * rewrite decide_False; [done|].
        rewrite elem_of_union, elem_of_singleton. tauto.
Qed.

(** What [broadcastToSSE] does to each connection. *)
Lemma broadcast_lookup key data m conn :
  heap (broadcastToSSE key (Some data) m) !! conn
  = if decide (conn ∈ default ∅ (connections m !! key))
    then deliver data (heap m !! conn) else heap m !! conn.
Proof.
  unfold broadcastToSSE. destruct (connections m !! key) as [conns|] eqn:E; simpl.
  - destruct (size conns =? 0)%nat eqn:Hsz.
    + apply Nat.eqb_eq, size_empty_inv, leibniz_equiv in Hsz. subst conns.
      rewrite decide_False; [done|set_solver].
    + simpl. apply fanout_lookup.
  - rewrite decide_False; [done|set_solver].
Qed.

(** A subscriber under the broadcast key with room in its buffer gets
    the event; one with a full buffer loses it. *)
Lemma broadcast_delivers key data m conn c conns :
  connections m !! key = Some conns → conn ∈ conns → heap m !! conn = Some c →
  buffered conn (broadcastToSSE key (Some data) m)
  = if (length (ch c) <? chan_cap)%nat then ch c ++ [data] else ch c.
Proof.
  intros Hk Hin Hc. unfold buffered. rewrite broadcast_lookup, Hk. simpl.
  rewrite decide_True by done. rewrite Hc. simpl.
  by destruct (length (ch c) <? chan_cap)%nat.
Qed.

(** Connections that are not stored under the broadcast key keep their
    buffers, whatever the event. *)
Lemma broadcast_elsewhere key data m conn :
  conn ∉ default ∅ (connections m !! key) →
  buffered conn (broadcastToSSE key data m) = buffered conn m.
Proof.
  intros Hout. destruct data as [d|].
  - unfold buffered. rewrite broadcast_lookup. by rewrite decide_False.
  - unfold broadcastToSSE. destruct (connections m !! key); [|done].
    by destruct (size _ =? 0)%nat.
Qed.

End SSEFacts.

Module BurstFacts.
Import GoTime RateLimit RateLimitFacts RateLimitProofs RateLimitLemmas.
Import GoStrings GoInt Store Http SSE Handlers HandlerFacts CaptureFacts.

#[local] Arguments CheckRateLimit : simpl never.



Section WithLib.
Context (lib : GoLib).



End WithLib.

End BurstFacts.

Module BackoffFacts.
Import Json GoInt Forward.











End BackoffFacts.

Module ForwardFacts.
Import Json GoInt Forward.

Section WithEnv.
Context (env : Env).
Hypothesis inserts_succeed : ∀ n, insert_ok env n = true.




End WithEnv.




Lemma one_to_length n : length (one_to n) = n.
Proof.
  unfold one_to. generalize 1. induction n as [|n IH]; intros a; simpl; [done|].
  by rewrite IH.
Qed.

End ForwardFacts.

Module TransformFacts.
Import Json Transform.

#[local] Instance created_before_total : Total created_before.
Proof. intros t1 t2. unfold created_before. lia. Qed.

#[local] Instance created_before_trans : Transitive created_before.
Proof. intros t1 t2 t3. unfold created_before. lia. Qed.

(** What the query returns: the selected rows, each once, oldest first. *)
Lemma query_permutation table endpointID applyTo :
  query_transformations table endpointID applyTo
  ≡ₚ filter (selected endpointID applyTo) table.
Proof. apply merge_sort_Permutation. Qed.

Lemma query_sorted table endpointID applyTo :
  StronglySorted created_before (query_transformations table endpointID applyTo).
Proof. apply StronglySorted_merge_sort; apply _. Qed.

Lemma query_elem table endpointID applyTo t :
  t ∈ query_transformations table endpointID applyTo
  ↔ t ∈ table ∧ selected endpointID applyTo t.
Proof. rewrite query_permutation, list_elem_of_filter. tauto. Qed.

(** The loop over the rows is the chain of the specification. *)
Lemma loop_is_chain eng rows : ∀ data,
  foldl (apply_row eng) data rows = chain (run_row eng) rows data.
Proof.
  induction rows as [|t rows IH]; intros data; [done|].
  simpl. rewrite IH. unfold apply_row, run_row.
  destruct (t_Language t) as [language|]; [|done].
  by destruct (ExecuteTransformation eng language (t_Script t) data).
Qed.

(** A chain in which every step fails on the input returns the input. *)
Lemma chain_all_fail exec rows data :
  (∀ t, t ∈ rows → ∃ e, exec t data = Err e) → chain exec rows data = data.
Proof.
  induction rows as [|t rows IH]; intros Hall; [done|]. simpl.
  destruct (Hall t ltac:(left)) as [e ->].
  apply IH. intros t' Hin. apply Hall. by right.
Qed.

End TransformFacts.

(* ================================================================= *)
(** * Part III: the claims *)
(* ================================================================= *)

(** ** Claims on the rate limiter *)

Section RateLimitClaims.
Import GoTime RateLimit RateLimitFacts RateLimitProofs RateLimitLemmas.
Import Store Http Handlers BurstFacts.


(** C5 — On the code, timestamps older than one hour are evicted before
    any count is taken, so the per-day check sees the admissions of the last
    hour only: with a per-day limit [d] as the only limit, a request is
    denied exactly when [d] admissions are recorded within the last hour.
    With a per-day limit of 1, a request two hours after an admitted one is
    admitted, although one admission lies within the trailing 24 hours. *)
Theorem C5_per_day_limit_forgets_after_an_hour :
  (∀ lim key now (rl : gmap string (list Z)) d,
     rateLimitPerMin lim = None → rateLimitPerHour lim = None →
     rateLimitPerDay lim = Some d →
     ((CheckRateLimit (Some lim) key now rl).1.1 = false
      ↔ d ≤ recent now Hour (default [] (rl !! key))))
  ∧ (let first := Samples.call_at Samples.one_per_day 0 in
     let second := Samples.call_at Samples.one_per_day 7200 in
     verdicts [first; second] ∅ = [true; true]
     ∧ in_window (c_now second - 24 * Hour) (24 * Hour)
         (admissions "ep" [first] ∅) = 1
     ∧ (step second (step first ∅).2).2 !! "ep" = Some [c_now second]).
Proof.
  split.
  - intros lim key now rl d. apply per_day_counts_last_hour.
  - vm_compute. done.
Qed.

End RateLimitClaims.

(** ** Claims on the capture handler *)

Section CaptureClaims.
Import GoStrings GoCrypto GoInt Store Http SSE Handlers HandlerFacts CaptureFacts.
Context (lib : GoLib).


(** C10 — On an endpoint with an HMAC secret, a capture that has passed
    the earlier gates and carries none of the four signature headers is
    answered with 500 "Signature verification error: no signature header
    found", not with 401, and is not persisted. *)
Theorem C10_missing_signature_header_is_500
    w env r endpointID body row secret algorithm :
  reaches_signature w env r endpointID body →
  fault_settings_query env = None →
  endpoint_settings (db w) !! endpointID = Some row →
  hmac_secret row = Some secret → secret ≠ "" →
  hmac_algorithm row = Some algorithm →
  Get (Headers r) "X-Signature" = "" →
  Get (Headers r) "X-Hub-Signature-256" = "" →
  Get (Headers r) "X-Stripe-Signature" = "" →
  Get (Headers r) "Signature" = "" →
  let res := CaptureHandler lib w env r in
  res.1 = Error "Signature verification error: no signature header found"
            StatusInternalServerError
  ∧ status res.1 = 500
  ∧ status res.1 ≠ StatusUnauthorized
  ∧ requests (db res.2) = requests (db w).
Proof.
  intros [Hreach Hrate] Hfault Hrow Hsec Hne Halg H1 H2 H3 H4 res.
  assert (Hh : signature_header (Headers r) = "")
    by (by apply signature_header_empty).
  assert (Hres : res = (Error "Signature verification error: no signature header found"
                          StatusInternalServerError,
                        with_limiter w (RateLimit.CheckRateLimit
                          (query_rate_limits (fault_rate_query env) (db w) endpointID)
                          endpointID (now env) (globalRateLimiter w)).2)).
  { subst res. rewrite (capture_at_rate_limit lib w env r endpointID body Hreach). simpl.
    rewrite Hrate. unfold query_hmac_settings. rewrite Hfault, Hrow, Halg, Hsec.
    by rewrite verify_without_header. }
  rewrite Hres. done.
Qed.

(** C1 — On the code, the event of a persisted capture is broadcast
    under the endpoint's id, [endpointID.String()], while subscribers are
    stored under the [endpoint] query parameter of their stream, the slug.
    So a connection that is not stored under the id string keeps its buffer
    as it was: a subscriber under the slug does not get the event, free
    buffer or not. *)
Theorem C1_slug_subscribers_miss_event w env r endpointID conn :
  endpoints (db w) !! slug_of r = Some endpointID →
  conn ∉ default ∅ (connections (sseMgr w) !! endpointID) →
  let res := CaptureHandler lib w env r in
  buffered conn (sseMgr res.2) = buffered conn (sseMgr w).
Proof.
  intros Hep Hout res.
  destruct (capture_outcome lib w env r) as [(_ & _ & Hsse & _)|Hok].
  - fold res in Hsse. by rewrite Hsse.
  - destruct Hok as (endpointID' & body & _ & _ & _ & Hep' & _ & _ & _ & _ & _ & _ & Hsse).
    fold res in Hsse. rewrite Hsse. rewrite Hep in Hep'. injection Hep' as <-.
    unfold publishRequestEvent. by apply SSEFacts.broadcast_elsewhere.
Qed.

(** C2 — On the code, a body that is not valid UTF-8 is persisted as its
    bare base64 encoding: the stored text does not start with the marker
    that the forwarder and the replay executor put in front of binary
    response bodies.  Decoding the stored text (with the marker stripped,
    which changes nothing) gives the payload back, and a non-empty valid
    UTF-8 body is stored verbatim; this holds for the row of every persisted
    capture. *)
Theorem C2_binary_body_stored_without_marker body :
  body ≠ [] →
  (Utf8.Valid body = false →
     body_for_storage body = Some (Base64.EncodeToString body)
     ∧ body_for_storage body
       ≠ Some (Forward.binary_marker +:+ Base64.EncodeToString body)
     ∧ HasPrefix (Base64.EncodeToString body) Forward.binary_marker = false
     ∧ Base64.DecodeString
         (TrimPrefix (Base64.EncodeToString body) Forward.binary_marker)
       = Some body)
  ∧ (Utf8.Valid body = true →
     body_for_storage body = Some (string_of_list_byte body)
     ∧ list_byte_of_string (string_of_list_byte body) = body)
  ∧ (∀ w env r row,
       read_body env r = Some body →
       requests (db (CaptureHandler lib w env r).2) = requests (db w) ++ [row] →
       req_body row = body_for_storage body).
Proof.
  intros Hne.
  assert (Hlen : (0 <? length body)%nat = true).
  { apply Nat.ltb_lt. destruct body; [done|simpl; lia]. }
  split; [|split].
  - intros Hbin. unfold body_for_storage. rewrite Hlen, Hbin.
    pose proof (encoded_has_no_marker body) as Hmark.
    split; [done|]. split.
    + intros [= Heq]. rewrite Heq in Hmark.
      unfold HasPrefix in Hmark. by rewrite prefix_append in Hmark.
    + split; [done|]. rewrite TrimPrefix_absent by done.
      apply Base64Facts.DecodeString_EncodeToString.
  - intros Htxt. unfold body_for_storage. rewrite Hlen, Htxt.
    split; [done|]. apply list_byte_of_string_of_list_byte.
  - intros w env r row Hread Hrow.
    destruct (persisted_row lib w env r row Hrow) as (endpointID & body' & Hread' & ->).
    rewrite Hread in Hread'. by injection Hread' as <-.
Qed.

(** C9 — A body of exactly [maxBodySize] bytes passes the size gate (and
    is persisted, with that size, when nothing else stops the capture); a
    body of one byte more is answered with 413 and not persisted; and a
    persisted row carries as [body_size] the length of the body that was
    read, which is at most [maxBodySize]. *)
Theorem C9_body_size_limit w env r :
  let max := maxBodySize env in
  let res := CaptureHandler lib w env r in
  (Z.of_nat (length (Body r)) = max →
     status res.1 ≠ StatusRequestEntityTooLarge
     ∧ ∀ endpointID,
         no_faults env → slug_of r ≠ "" → max < 2 ^ 63 - 1 →
         endpoints (db w) !! slug_of r = Some endpointID →
         endpoint_settings (db w) !! endpointID = None →
         res.1 = {| status := StatusOK; payload := "OK" |}
         ∧ ∃ row, requests (db res.2) = requests (db w) ++ [row]
                  ∧ req_body_size row = max)
  ∧ (Z.of_nat (length (Body r)) = max + 1 → max < 2 ^ 63 - 1 →
     requests (db res.2) = requests (db w)
     ∧ status res.1 ≠ StatusOK
     ∧ (slug_of r ≠ "" → fault_endpoint_query env = None →
        is_Some (endpoints (db w) !! slug_of r) → fault_body_read env = false →
        res.1 = Error "Request body too large" StatusRequestEntityTooLarge))
  ∧ (∀ row, requests (db res.2) = requests (db w) ++ [row] →
     ∃ body, read_body env r = Some body
             ∧ req_body_size row = Z.of_nat (length body)
             ∧ Z.of_nat (length body) ≤ max
             ∧ req_body row = body_for_storage body).
Proof.
  intros max res. split; [|split].
  - intros Hlen. split.
    + intros Hst. apply too_large_inv in Hst as (body & Hread & Hbig).
      apply read_body_length in Hread. fold max in Hbig. lia.
    + intros endpointID Hnf Hslug Hmax Hep Hset.
      destruct (capture_plain lib w env r endpointID) as [Hresp Hreqs]; try done; [lia|].
      split; [done|]. eexists. split; [exact Hreqs|]. done.
  - intros Hlen Hmax.
    assert (Hnot : status res.1 ≠ StatusOK ∧ db res.2 = db w).
    { destruct (capture_outcome lib w env r) as [(Hst & Hdb & _)|Hok]; [done|].
      destruct Hok as (endpointID & body & _ & _ & _ & _ & Hread & Hsize & _).
      exfalso. unfold read_body, ReadAll_LimitReader in Hread.
      destruct (fault_body_read env); [done|]. injection Hread as <-.
      rewrite wrap64_small in Hsize by (fold max; lia).
      rewrite take_ge in Hsize by (fold max; lia). fold max in Hsize. lia. }
    destruct Hnot as [Hst Hdb]. split; [by rewrite Hdb|]. split; [done|].
    intros Hslug Hfe [endpointID Hep] Hfb. subst res. unfold CaptureHandler.
    apply String.eqb_neq in Hslug. rewrite Hslug. unfold query_endpoint. rewrite Hfe, Hep.
    rewrite read_body_whole by (try done; fold max; lia).
    fold max. rewrite (proj2 (Z.ltb_lt _ _)) by lia. done.
  - intros row Hrow.
    destruct (capture_outcome lib w env r) as [(_ & Hdb & _)|Hok].
    + fold res in Hdb. rewrite Hdb in Hrow.
      apply (f_equal length) in Hrow. rewrite length_app in Hrow. simpl in Hrow. lia.
    + destruct Hok as (endpointID & body & _ & _ & _ & _ & Hread & Hsize & _ & _ & _ & Hdb & _).
      fold res in Hdb. rewrite Hdb, requests_insert in Hrow.
      apply app_inv_head in Hrow. injection Hrow as <-.
      exists body. done.
Qed.

End CaptureClaims.

(** ** Claims on the forwarder *)

Section ForwardClaims.
Import Json GoInt Forward ForwardFacts BackoffFacts.



End ForwardClaims.

(** ** Claims on the transformation chain *)

Section TransformClaims.
Import Json Transform TransformFacts.
Context (eng : Engines).

(** C8 — When the query succeeds, [ApplyTransformations] runs exactly the
    enabled transformations of the endpoint whose apply-to is the selector
    or [both], each once, in ascending order of creation time, feeding each
    output to the next; one that errors is skipped and the chain goes on
    from the value before it; if each of them errors on the input, the
    result is the input.  The result is never a transformation error: the
    only error is that of the query itself. *)
Theorem C8_transformation_chain table endpointID applyTo data :
  let rows := query_transformations table endpointID applyTo in
  (∀ t, t ∈ rows ↔
        t ∈ table ∧ t_EndpointID t = endpointID ∧ t_Enabled t = true
        ∧ (t_ApplyTo t = Some applyTo ∨ t_ApplyTo t = Some "both"))
  ∧ rows ≡ₚ filter (selected endpointID applyTo) table
  ∧ StronglySorted (λ t1 t2, t_CreatedAt t1 ≤ t_CreatedAt t2) rows
  ∧ ApplyTransformations eng None table endpointID applyTo data
    = Ok (chain (run_row eng) rows data)
  ∧ (∀ t ts v v', run_row eng t v = Ok v' →
       chain (run_row eng) (t :: ts) v = chain (run_row eng) ts v')
  ∧ (∀ t ts v e, run_row eng t v = Err e →
       chain (run_row eng) (t :: ts) v = chain (run_row eng) ts v)
  ∧ ((∀ t, t ∈ rows → ∃ e, run_row eng t data = Err e) →
     ApplyTransformations eng None table endpointID applyTo data = Ok data)
  ∧ (∀ fault,
       match ApplyTransformations eng fault table endpointID applyTo data with
       | Ok _ => fault = None
       | Err msg => ∃ e, fault = Some e
                         ∧ msg = "failed to fetch transformations: " +:+ e
       end).
Proof.
  intros rows. split; [apply query_elem|]. split; [apply query_permutation|].
  split; [apply query_sorted|].
  assert (Happly : ApplyTransformations eng None table endpointID applyTo data
                   = Ok (chain (run_row eng) rows data)).
  { unfold ApplyTransformations. by rewrite loop_is_chain. }
  split; [done|].
  split; [intros t ts v v' H; simpl; by rewrite H|].
  split; [intros t ts v e H; simpl; by rewrite H|].
  split.
  - intros Hall. rewrite Happly. f_equal. by apply chain_all_fail.
  - intros [e|]; simpl; [by exists e|done].
Qed.

End TransformClaims.

(* ================================================================= *)
(** * Part IV: the claims on sample data *)
(* ================================================================= *)

(** Closing goals on sample data by evaluation. *)
Ltac by_compute :=
  vm_compute; first [ reflexivity | discriminate | (intro; discriminate) ].



(** The same endpoint, a capture without any signature header: 500,
    nothing stored. *)
Lemma C10_missing_signature_header_is_500_witness :
  let w := Samples.world (Some (Samples.settings (Some "s3cr") None None)) in
  let r := Samples.post ∅ in
  let res := Handlers.CaptureHandler Samples.lib w (Samples.env_at 0 "req-1") r in
  Http.status res.1 = 500 ∧ Store.requests (Handlers.db res.2) = [].
Proof.
  intros w r res.
  destruct (C10_missing_signature_header_is_500 Samples.lib w (Samples.env_at 0 "req-1") r
              Samples.endpointID (Http.Body r)
              (Samples.settings (Some "s3cr") None None) "s3cr" "sha256")
    as (_ & Hst & _ & Hdb); try by_compute.
  - repeat split; by_compute.
  - split; [exact Hst|exact Hdb].
Defined.

(** A body of seven bytes against a limit of seven and of six bytes. *)
Lemma C9_body_size_limit_witness :
  let w := Samples.world None in
  let r := Samples.post ∅ in
  let at_limit := Handlers.CaptureHandler Samples.lib w (Samples.env_with_max 7 0 "req-1") r in
  let over_limit := Handlers.CaptureHandler Samples.lib w (Samples.env_with_max 6 0 "req-1") r in
  (Http.status at_limit.1 = 200
   ∧ ∃ row, Store.requests (Handlers.db at_limit.2) = [row] ∧ Store.req_body_size row = 7)
  ∧ (Http.status over_limit.1 = 413 ∧ Store.requests (Handlers.db over_limit.2) = [])
  ∧ (∀ row, Store.requests (Handlers.db at_limit.2) = [row] →
       Store.req_body row = Some (string_of_list_byte (Http.Body r))).
Proof.
  intros w r at_limit over_limit.
  destruct (C9_body_size_limit Samples.lib w (Samples.env_with_max 7 0 "req-1") r)
    as (Hat & _ & Hrow).
  destruct (C9_body_size_limit Samples.lib w (Samples.env_with_max 6 0 "req-1") r)
    as (_ & Hover & _).
  split; [|split].
  - destruct (Hat ltac:(by_compute)) as [_ Hok].
    destruct (Hok Samples.endpointID) as [Hresp Hreq]; try by_compute.
    { repeat split; by_compute. }
    split; [|exact Hreq]. unfold at_limit. by rewrite Hresp.
  - destruct Hover as (Hdb & _ & Hresp); try by_compute.
    split; [|exact Hdb]. unfold over_limit. rewrite Hresp; try by_compute.
    by exists Samples.endpointID.
  - intros row Hr. destruct (Hrow row Hr) as (body & Hread & _ & _ & Hbody).
    vm_compute in Hread. injection Hread as <-. rewrite Hbody. by_compute.
Defined.

(** A stream opened for the slug, then a capture on that slug: the
    capture is stored, the stream's buffer stays empty. *)
Lemma C1_slug_subscribers_miss_event_witness :
  let w0 := Samples.world None in
  let w := {| Handlers.db := Handlers.db w0;
              Handlers.globalRateLimiter := ∅;
              Handlers.sseMgr := SSE.register Samples.slug 1%nat SSE.sseMgr_init;
              Handlers.spawned := [] |} in
  let res := Handlers.CaptureHandler Samples.lib w (Samples.env_at 0 "req-1") (Samples.post ∅) in
  Http.status res.1 = 200
  ∧ length (Store.requests (Handlers.db res.2)) = 1%nat
  ∧ SSE.connections (Handlers.sseMgr w) !! Samples.slug = Some {[ 1%nat ]}
  ∧ SSE.buffered 1%nat (Handlers.sseMgr w) = []
  ∧ SSE.buffered 1%nat (Handlers.sseMgr res.2) = [].
Proof.
  intros w0 w res.
  split; [by_compute|]. split; [by_compute|]. split; [by_compute|]. split; [by_compute|].
  unfold res.
  rewrite (C1_slug_subscribers_miss_event Samples.lib w (Samples.env_at 0 "req-1")
             (Samples.post ∅) Samples.endpointID 1%nat).
  - by_compute.
  - by_compute.
  - vm_compute. set_solver.
Defined.

(** The body [0xFF] is stored as the four characters of its base64
    encoding, which is also how the text body with these four characters is
    stored. *)
Lemma C2_binary_body_stored_without_marker_witness :
  Handlers.body_for_storage [xff] = Some "/w=="
  ∧ Base64.DecodeString "/w==" = Some [xff]
  ∧ Handlers.body_for_storage (list_byte_of_string "/w==") = Some "/w=="
  ∧ (∀ row,
       Store.requests (Handlers.db (Handlers.CaptureHandler Samples.lib (Samples.world None)
                                      (Samples.env_at 0 "req-1") (Samples.post ∅)).2)
       = [row] →
       Store.req_body row = Some (string_of_list_byte (Http.Body (Samples.post ∅)))).
Proof.
  destruct (C2_binary_body_stored_without_marker Samples.lib [xff] ltac:(done))
    as (Hbin & _ & _).
  destruct (Hbin ltac:(by_compute)) as (Hstored & _ & _ & Hback).
  destruct (C2_binary_body_stored_without_marker Samples.lib (list_byte_of_string "/w==")
              ltac:(done)) as (_ & Htxt & _).
  destruct (Htxt ltac:(by_compute)) as (Hverb & _).
  destruct (C2_binary_body_stored_without_marker Samples.lib (Http.Body (Samples.post ∅))
              ltac:(done)) as (_ & Htxt' & Hrow).
  destruct (Htxt' ltac:(by_compute)) as (Hverb' & _).
  split; [exact Hstored|]. split; [exact Hback|]. split; [exact Hverb|].
  intros row Hr. rewrite <- Hverb'.
  apply (Hrow (Samples.world None) (Samples.env_at 0 "req-1") (Samples.post ∅) row);
    [by_compute|exact Hr].
Defined.




(** Three transformations, one disabled, the oldest enabled one failing. *)
Lemma C8_transformation_chain_witness :
  let rows := Transform.query_transformations Samples.transformations
                Samples.endpointID "request" in
  Transform.t_Name <$> rows = ["query"; "script"]
  ∧ Transform.ApplyTransformations Samples.engines None Samples.transformations
      Samples.endpointID "request" (Json.Str "payload")
    = Ok (Json.Str "payload")
  ∧ Transform.ApplyTransformations Samples.engines None
      [Samples.transformation "query" "jq" true 10] Samples.endpointID "request"
      (Json.Str "payload")
    = Ok (Json.Str "payload").
Proof.
  intros rows.
  destruct (C8_transformation_chain Samples.engines Samples.transformations
              Samples.endpointID "request" (Json.Str "payload"))
    as (_ & _ & _ & Hchain & _).
  destruct (C8_transformation_chain Samples.engines
              [Samples.transformation "query" "jq" true 10]
              Samples.endpointID "request" (Json.Str "payload"))
    as (_ & _ & _ & _ & _ & _ & Hfail & _).
  split; [by_compute|]. split.
  - rewrite Hchain. by_compute.
  - apply Hfail. intros t Ht. vm_compute in Ht.
    apply list_elem_of_singleton in Ht as ->. by eexists.
Defined.

(** Limit 1 per day: a request two hours after an admitted one. *)
Lemma C5_per_day_limit_forgets_after_an_hour_witness :
  (RateLimit.CheckRateLimit (Some Samples.one_per_day) "ep" (7200 * GoTime.Second)
     {[ "ep" := [0] ]}).1.1 = true
  ∧ RateLimit.verdicts [Samples.call_at Samples.one_per_day 0;
                        Samples.call_at Samples.one_per_day 7200] ∅ = [true; true].
Proof.
  destruct C5_per_day_limit_forgets_after_an_hour as (Hday & Hrun & _).
  split; [|exact Hrun].
  apply not_false_iff_true. intros Hdenied.
  apply (Hday Samples.one_per_day "ep" (7200 * GoTime.Second) {[ "ep" := [0] ]} 1
           eq_refl eq_refl eq_refl) in Hdenied.
  vm_compute in Hdenied. by apply Hdenied.
Defined.
